(** * ZooKeeper K8s operator: quorum reconciliation, restart and upgrade checks

    A shallow embedding of [src/charm.py] (class [ZooKeeperCharm]) and
    [src/events/upgrade.py] (class [ZKUpgradeEvents]).  Relation databags are
    finite maps from strings to strings, as Juju has them; the charm is a
    record that every handler threads through explicitly; calls on external
    collaborators (workload, restart lock, event deferral) are appended to a
    trace in program order. *)

From Stdlib Require Import Ascii.
From stdpp Require Import base gmap strings list fin_maps pretty.

Open Scope string_scope.

(** ** Literals ([src/literals.py]) *)

Definition CHARM_USERS : list string := ["super"; "sync"].
Definition CLIENT_PORT : N := 2181.

(** ** Python values *)

(** [d.get(k, "")] on a databag. *)
Definition get (d : gmap string string) (k : string) : string :=
  default "" (d !! k).

(** [bool(s)] for a Python string. *)
Definition truthy (s : string) : bool := negb (bool_decide (s = "")).

(** ["true" if b else ""] *)
Definition flag (b : bool) : string := if b then "true" else "".

(** [str(n)] for a non-negative integer. *)
Definition str (n : N) : string := pretty n.

(** [d.update(items)]: the items win over what the databag held.  A key
    written with the empty string stays in the map with that value, where
    Juju drops the key ([relation_set] below); [get] answers the empty string
    for both, and the accessors of the models read through [get] only. *)
Definition dict_update (items d : gmap string string) : gmap string string :=
  items ∪ d.

(** The same write as Juju stores it: a key set to the empty string is
    removed, which is how lines 318-321 of [charm.py] remove the
    switching-encryption flag. *)
Definition relation_set (items d : gmap string string) : gmap string string :=
  filter (λ kv, kv.2 ≠ EmptyString) items ∪ filter (λ kv, items !! kv.1 = None) d.

Definition is_digit (a : ascii) : bool :=
  let n := nat_of_ascii a in (48 <=? n)%nat && (n <=? 57)%nat.

Fixpoint all_digits (k : string) : bool :=
  match k with
  | EmptyString => true
  | String a k' => is_digit a && all_digits k'
  end.

(** A databag key that names a unit: a non-empty string of decimal digits. *)
Definition is_unit_key (k : string) : bool :=
  negb (bool_decide (k = "")) && all_digits k.

(** ** Nodes: the unit-scope databag of one ensemble member *)

Module ZKServer.

  (** Modelled from the spec: [core.models.ZKServer] is not among the sources.
      Section 3 (Node) gives the attributes; the keys ["state"], ["unified"],
      ["quorum"] and ["password-rotated"] are the ones [charm.py] writes. *)
Record t := {
    component : string;                 (* the unit's name, [component.name] *)
    unit_id : N;                        (* ZooKeeper myid *)
    host : string;                      (* network address, empty until published *)
    relation_data : gmap string string  (* unit-scope databag *)
  }.

Definition started (s : t) : bool :=
    bool_decide (get (relation_data s) "state" = "started").
Definition unified (s : t) : bool := truthy (get (relation_data s) "unified").
Definition quorum (s : t) : string := get (relation_data s) "quorum".
Definition password_rotated (s : t) : bool :=
    truthy (get (relation_data s) "password-rotated").

Definition update (items : gmap string string) (s : t) : t :=
    {| component := component s; unit_id := unit_id s; host := host s;
       relation_data := dict_update items (relation_data s) |}.

End ZKServer.

(** ** Cluster: the application-scope databag, written by the coordinator *)

Module ZKCluster.

  (** Modelled from the spec: [core.models.ZKCluster] is not among the sources.
      Section 3 (Cluster) gives the attributes: credentials, current quorum
      encryption mode, switching-encryption flag, password-rotation flag and
      the membership entries unit-id -> "added".  [tls] is the certificate
      collaborator's "certificate relationship present". *)
Record t := {
    relation_data : gmap string string;
    tls : bool
  }.

Definition quorum (c : t) : string := get (relation_data c) "quorum".
Definition switching_encryption (c : t) : bool :=
    truthy (get (relation_data c) "switching-encryption").
Definition rotate_passwords (c : t) : bool :=
    truthy (get (relation_data c) "rotate-passwords").

  (** Non-empty once every charm user has a password. *)
Definition internal_user_credentials (c : t) : bool :=
    forallb (λ user, truthy (get (relation_data c) (user +:+ "-password")))
            CHARM_USERS.

  (** The membership entries: unit keys carrying the "added" marker. *)
Definition membership (c : t) : gmap string string :=
    filter (λ kv, is_unit_key kv.1 = true ∧ kv.2 = "added") (relation_data c).

Definition update (items : gmap string string) (c : t) : t :=
    {| relation_data := dict_update items (relation_data c); tls := tls c |}.

End ZKCluster.

(** ** Clients *)

Module ZKClient.

  (** Modelled from the spec: [core.models.ZKClient] is not among the sources.
      Section 6 lists what is exposed to a client: connection URIs, endpoint
      list, TLS flag, username, password and chroot path; an empty password
      means the client is not provisioned yet. *)
Record t := {
    uris : string;
    endpoints : string;
    tls : string;
    username : string;
    password : string;
    chroot : string;
    relation_data : gmap string string   (* what the client relation holds *)
  }.

Definition update (items : gmap string string) (c : t) : t :=
    {| uris := uris c; endpoints := endpoints c; tls := tls c;
       username := username c; password := password c; chroot := chroot c;
       relation_data := dict_update items (relation_data c) |}.

End ZKClient.

(** ** Events, unit status and the trace of external calls *)

Inductive Event :=
| RelationDepartedEvent (departing_unit : option string)
| LeaderElectedEvent
| OtherEvent.

(** [getattr(event, "departing_unit", None)] *)
Definition departing_unit (event : Event) : option string :=
  match event with
  | RelationDepartedEvent u => u
  | _ => None
  end.

(** [isinstance(event, (RelationDepartedEvent, LeaderElectedEvent))] *)
Definition is_departed_or_elected (event : Event) : bool :=
  match event with
  | RelationDepartedEvent _ | LeaderElectedEvent => true
  | OtherEvent => false
  end.

Inductive StatusBase :=
| ActiveStatus
| MaintenanceStatus (message : string)
| WaitingStatus (message : string)
| BlockedStatus (message : string).

Inductive Call :=
| Defer                          (* event.defer() *)
| AcquireLock                    (* self.on[restart.name].acquire_lock.emit() *)
| WorkloadStart
| WorkloadRestart
| Sleep (seconds : nat)
| SetZookeeperMyid
| SetServerJvmflags
| SetZookeeperDynamicProperties
| SetZookeeperProperties
| SetJaasConfig.

#[global] Instance Call_eq_dec : EqDecision Call.
Proof. solve_decision. Defined.

(** ** The charm *)

Record Charm := {
  unit_name : string;                (* self.unit *)
  is_leader : bool;                  (* self.unit.is_leader() *)
  peer_relation : bool;              (* self.state.peer_relation is present *)
  alive : bool;                      (* self.workload.alive() *)
  unit_server : ZKServer.t;          (* self.state.unit_server *)
  peer_servers : list ZKServer.t;    (* the other members of the topology *)
  cluster : ZKCluster.t;             (* self.state.cluster *)
  clients : list ZKClient.t;         (* self.state.clients *)
  status : StatusBase;               (* self.unit.status *)
  applied_config : string;           (* the configuration currently on disk *)
  trace : list Call                  (* calls on collaborators, oldest first *)
}.

Definition set_unit_server (f : ZKServer.t → ZKServer.t) (s : Charm) : Charm :=
  {| unit_name := unit_name s; is_leader := is_leader s;
     peer_relation := peer_relation s; alive := alive s;
     unit_server := f (unit_server s); peer_servers := peer_servers s;
     cluster := cluster s; clients := clients s; status := status s;
     applied_config := applied_config s; trace := trace s |}.

Definition set_cluster (f : ZKCluster.t → ZKCluster.t) (s : Charm) : Charm :=
  {| unit_name := unit_name s; is_leader := is_leader s;
     peer_relation := peer_relation s; alive := alive s;
     unit_server := unit_server s; peer_servers := peer_servers s;
     cluster := f (cluster s); clients := clients s; status := status s;
     applied_config := applied_config s; trace := trace s |}.

Definition set_clients (f : list ZKClient.t → list ZKClient.t) (s : Charm) : Charm :=
  {| unit_name := unit_name s; is_leader := is_leader s;
     peer_relation := peer_relation s; alive := alive s;
     unit_server := unit_server s; peer_servers := peer_servers s;
     cluster := cluster s; clients := f (clients s); status := status s;
     applied_config := applied_config s; trace := trace s |}.

Definition set_status (st : StatusBase) (s : Charm) : Charm :=
  {| unit_name := unit_name s; is_leader := is_leader s;
     peer_relation := peer_relation s; alive := alive s;
     unit_server := unit_server s; peer_servers := peer_servers s;
     cluster := cluster s; clients := clients s; status := st;
     applied_config := applied_config s; trace := trace s |}.

Definition set_applied_config (c : string) (s : Charm) : Charm :=
  {| unit_name := unit_name s; is_leader := is_leader s;
     peer_relation := peer_relation s; alive := alive s;
     unit_server := unit_server s; peer_servers := peer_servers s;
     cluster := cluster s; clients := clients s; status := status s;
     applied_config := c; trace := trace s |}.

(** Record one call on a collaborator. *)
Definition call (c : Call) (s : Charm) : Charm :=
  {| unit_name := unit_name s; is_leader := is_leader s;
     peer_relation := peer_relation s; alive := alive s;
     unit_server := unit_server s; peer_servers := peer_servers s;
     cluster := cluster s; clients := clients s; status := status s;
     applied_config := applied_config s; trace := trace s ++ [c] |}.

(** ** Cluster state ([self.state]) *)

Module ClusterState.

  (** Modelled from the spec: [core.cluster.ClusterState] is not among the
      sources.  Every predicate below follows section 4.2 (and 4.1 for the
      init leader and the stale quorum), recomputed from the current state on
      every access. *)

  (** Every topology member, this unit included. *)
Definition servers (s : Charm) : list ZKServer.t :=
    unit_server s :: peer_servers s.

Definition started_servers (s : Charm) : list ZKServer.t :=
    filter (λ srv, ZKServer.started srv = true) (servers s).

  (** [all_units_related]: every topology member has published its network
      address. *)
Definition all_units_related (s : Charm) : bool :=
    forallb (λ srv, truthy (ZKServer.host srv)) (servers s).

  (** [all_units_unified]: every node's unified flag is true. *)
Definition all_units_unified (s : Charm) : bool :=
    forallb ZKServer.unified (servers s).

  (** [all_units_quorum]: every node's reported quorum field equals the
      cluster's current target mode. *)
Definition all_units_quorum (s : Charm) : bool :=
    forallb (λ srv, bool_decide (ZKServer.quorum srv = ZKCluster.quorum (cluster s)))
            (servers s).

  (** [healthy]: all nodes report started. *)
Definition healthy (s : Charm) : bool :=
    forallb ZKServer.started (servers s).

  (** [stale_quorum]: the number of shared membership entries differs from the
      number of nodes that have reported started. *)
Definition stale_quorum (s : Charm) : bool :=
    negb (bool_decide (size (ZKCluster.membership (cluster s))
                       = length (started_servers s))).

  (** [stable]: no stale quorum, all units related, and (no encryption switch
      in progress, or all-units-quorum already satisfied). *)
Definition stable (s : Charm) : bool :=
    negb (stale_quorum s) && all_units_related s
    && (negb (ZKCluster.switching_encryption (cluster s)) || all_units_quorum s).

  (** The server of lowest unit id in a list. *)
Fixpoint lowest (l : list ZKServer.t) : option ZKServer.t :=
    match l with
    | [] => None
    | srv :: rest =>
        match lowest rest with
        | Some m => if (ZKServer.unit_id m <? ZKServer.unit_id srv)%N
                    then Some m else Some srv
        | None => Some srv
        end
    end.

  (** [init_leader]: the node with the lowest unit id. *)
Definition init_leader (s : Charm) : option ZKServer.t := lowest (servers s).

  (** [next_server]: nodes start in ascending unit-id order, each one after
      its predecessors were added; the next to start is the lowest unit id
      without a membership entry. *)
Definition next_server (s : Charm) : option ZKServer.t :=
    lowest (filter (λ srv, ZKCluster.membership (cluster s)
                             !! str (ZKServer.unit_id srv) = None)
                   (servers s)).

End ClusterState.

(** ** Quorum manager *)

Module QuorumManager.

  (** Modelled from the spec: [managers.quorum.QuorumManager.update_cluster]
      is not among the sources.  Section 4.1 step 2: the Engine recomputes the
      full desired membership set, the nodes that have reported started, as a
      mapping unit-id -> action, where the only action written is "added". *)
Definition update_cluster (s : Charm) : gmap string string :=
    list_to_map ((λ srv, (str (ZKServer.unit_id srv), "added"))
                   <$> ClusterState.started_servers s).

End QuorumManager.

(** ** [ZooKeeperCharm] *)

Section ZooKeeperCharm.

  (** [self.state.ready], the gate on publishing to clients.  The sources do
      not hold it and the specification names it without defining it, so it
      is a parameter of the development. *)
Variable ready : Charm → bool.

  (** The Materializer (section 4.3): the server configuration rendered from
      the current state, a pure function of that state. *)
Variable render : Charm → string.

  (** Modelled from the spec: [managers.config.ConfigManager.config_changed]
      is not among the sources.  Section 4.3: the rendered output is compared
      with the currently applied output, and written only when they differ. *)
Definition config_changed (s : Charm) : bool * Charm :=
    if bool_decide (render s = applied_config s) then (false, s)
    else (true, set_applied_config (render s) s).

  (** Modelled from the spec: [ConfigManager.set_zookeeper_properties] is not
      among the sources; it writes the rendered server properties. *)
Definition set_zookeeper_properties (s : Charm) : Charm :=
    call SetZookeeperProperties (set_applied_config (render s) s).

  (** One client's share of [update_client_data], lines 332-344. *)
Definition publish (client : ZKClient.t) : ZKClient.t :=
    if negb (truthy (ZKClient.password client)) then client
    else ZKClient.update
           (list_to_map [("uris", ZKClient.uris client);
                         ("endpoints", ZKClient.endpoints client);
                         ("tls", ZKClient.tls client);
                         ("username", ZKClient.username client);
                         ("password", ZKClient.password client);
                         ("chroot", ZKClient.chroot client)])
           client.

  (** [update_client_data], lines 326-344. *)
Definition update_client_data (s : Charm) : Charm :=
    if negb (ready s) || negb (is_leader s) then s
    else set_clients (fmap publish) s.

  (** Lines 281-285: the init leader is set to "added" once it has started. *)
Definition add_init_leader (s : Charm) : Charm :=
    match ClusterState.init_leader s with
    | Some init_leader =>
        if ZKServer.started init_leader
        then set_cluster
               (ZKCluster.update {[ str (ZKServer.unit_id init_leader) := "added" ]}) s
        else s
    | None => s
    end.

  (** Lines 287-299: the membership is recomputed and written. *)
Definition update_members (event : Event) (s : Charm) : Charm :=
    if ClusterState.stale_quorum s || is_departed_or_elected event
       || ClusterState.healthy s
    then set_cluster (ZKCluster.update (QuorumManager.update_cluster s)) s
    else s.

  (** Lines 308-322: the encryption-mode switch. *)
Definition switch_encryption (s : Charm) : Charm :=
    if ClusterState.all_units_unified s then
      let s := if ZKCluster.tls (cluster s)
               then set_cluster (ZKCluster.update {[ "quorum" := "ssl" ]}) s
               else set_cluster (ZKCluster.update {[ "quorum" := "non-ssl" ]}) s in
      if ClusterState.all_units_quorum s
      then set_cluster (ZKCluster.update {[ "switching-encryption" := "" ]}) s
      else s
    else s.

  (** The mode the coordinator aims at, lines 310-315. *)
Definition target_mode (s : Charm) : string :=
    if ZKCluster.tls (cluster s) then "ssl" else "non-ssl".

  (** The state a pass has reached when it checks stability, line 303. *)
Definition at_stability_check (event : Event) (s : Charm) : Charm :=
    update_members event (add_init_leader s).

  (** The guard of line 278, negated: the unit is the coordinator and the
      event is not its own departure, so the pass goes on. *)
Definition reconciles (event : Event) (s : Charm) : bool :=
    is_leader s && negb (bool_decide (departing_unit event = Some (unit_name s))).

  (** [update_quorum], lines 273-324. *)
Definition update_quorum (event : Event) (s : Charm) : Charm :=
    if negb (is_leader s)
       || bool_decide (departing_unit event = Some (unit_name s))
    then s
    else
      let s := add_init_leader s in
      let s := update_members event s in
      if negb (ClusterState.stable s) then s
      else update_client_data (switch_encryption s).

  (** Lines 236-239: another unit is next in the start order. *)
Definition not_unit_turn (s : Charm) : bool :=
    match ClusterState.next_server s with
    | Some next_server =>
        negb (bool_decide (ZKServer.component next_server
                           = ZKServer.component (unit_server s)))
    | None => false
    end.

  (** [init_server], lines 219-271. *)
Definition init_server (s : Charm) : Charm :=
    if negb (ZKCluster.internal_user_credentials (cluster s))
    then set_status (MaintenanceStatus "waiting for passwords to be created") s
    else if negb (ClusterState.all_units_related s) then s
    else if not_unit_turn s
    then set_status (MaintenanceStatus "waiting for unit turn to start") s
    else
      let s := set_status (MaintenanceStatus "starting ZooKeeper server") s in
      let s := call SetZookeeperMyid s in
      let s := call SetServerJvmflags s in
      let s := call SetZookeeperDynamicProperties s in
      let s := set_zookeeper_properties s in
      let s := call SetJaasConfig s in
      let s := call WorkloadStart s in
      let s := set_status ActiveStatus s in
      set_unit_server
        (ZKServer.update
           (list_to_map
              [("state", "started");
               ("unified", flag (ZKCluster.switching_encryption (cluster s)));
               ("quorum", ZKCluster.quorum (cluster s))]))
        s.

  (** The state [_on_cluster_relation_changed] has reached when it decides on
    the restart, line 158: after the start attempt and the quorum update. *)
Definition before_restart_check (event : Event) (s : Charm) : Charm :=
  update_quorum event
    (if negb (ZKServer.started (unit_server s)) then init_server s else s).

(** [_on_cluster_relation_changed], lines 134-165. *)
Definition _on_cluster_relation_changed (event : Event) (s : Charm) : Charm :=
    if negb (alive s) then call Defer s
    else if negb (peer_relation s) then s
    else
      let s := if negb (ZKServer.started (unit_server s)) then init_server s else s in
      let s := update_quorum event s in
      if bool_decide (departing_unit event = Some (unit_name s)) then s
      else
        let '(changed, s) := config_changed s in
        let s := if (changed || ZKCluster.switching_encryption (cluster s))
                    && ZKServer.started (unit_server s)
                 then call AcquireLock s else s in
        if ZKCluster.switching_encryption (cluster s)
           && bool_decide (length (ClusterState.servers s) = 1)
        then call Defer s else s.

  (** [_restart], lines 188-215. *)
Definition _restart (s : Charm) : Charm :=
    if negb (ClusterState.stable s) then call Defer s
    else
      let s := call WorkloadRestart s in
      let s := call (Sleep 5) s in
      let s := set_status ActiveStatus s in
      let s := set_unit_server
                 (ZKServer.update
                    (list_to_map
                       [("unified", flag (ZKCluster.switching_encryption (cluster s)));
                        ("quorum", ZKCluster.quorum (cluster s));
                        ("password-rotated", flag (ZKCluster.rotate_passwords (cluster s)))]))
                 s in
      update_client_data s.

End ZooKeeperCharm.

(** ** [ZKUpgradeEvents] ([src/events/upgrade.py]) *)

Module Upgrade.

  (** The exceptions the upgrade checks meet.  All of them derive from
      Python's [Exception]: [ClusterNotReadyError] and [KubernetesClientError]
      through the upgrade library's [UpgradeError], the others directly or
      through their own libraries. *)
Inductive exn :=
  | QuorumLeaderNotFoundError
  | ConnectionClosedError
  | ClusterNotReadyError (message cause : string)
  | KubernetesClientError (message cause : string)
  | ModelError
  | OtherException (name : string).

Inductive result (A : Type) :=
  | Ok (a : A)
  | Raise (e : exn).
Arguments Ok {A} a.
Arguments Raise {A} e.

  (** Sequencing: an exception leaves the rest of a block unexecuted. *)
#[global] Instance result_bind : MBind result := λ A B k r,
    match r with
    | Ok a => k a
    | Raise e => Raise e
    end.

  (** What the quorum probe answers during one attempt; every property is
      computed against the live ensemble and may raise. *)
Record ZooKeeperManager := {
    members_broadcasting : result bool;
    server_members : result (list string);
    members_syncing : result bool
  }.

Record ApiError := { code : nat; text : string }.

  (** The surroundings of one attempt of a check. *)
Record Env := {
    idle : bool;                        (* self.idle *)
    patch : option ApiError;            (* Client().patch: [None] when it succeeds *)
    client : result ZooKeeperManager;   (* self.client *)
    charm : Charm;                      (* self.charm *)
    workload_healthy : result bool      (* self.charm.workload.healthy *)
  }.

Definition default_message : string :=
    "Pre-upgrade check failed and cannot safely upgrade".

  (** [_set_rolling_update_partition], lines 161-179. *)
Definition _set_rolling_update_partition (env : Env) (partition : nat) : result unit :=
    match patch env with
    | None => Ok tt
    | Some e =>
        let cause := if bool_decide (code e = 403) then "`juju trust` needed"
                     else text e in
        Raise (KubernetesClientError "Kubernetes StatefulSet patch failed" cause)
    end.

  (** The body of the [try] block of [pre_upgrade_check], lines 115-134. *)
Definition checks (env : Env) : result unit :=
    zk ← client env ;
    broadcasting ← members_broadcasting zk ;
    failed ← (if negb broadcasting then Ok true
              else members ← server_members zk ;
                   Ok (negb (bool_decide
                               (length members
                                = length (ClusterState.servers (charm env)))))) ;
    if failed : bool then
      Raise (ClusterNotReadyError default_message
               "Not all application units are connected and broadcasting in the quorum")
    else
      syncing ← members_syncing zk ;
      if syncing : bool then
        Raise (ClusterNotReadyError default_message
                 "Some quorum members are syncing data")
      else if negb (ClusterState.stable (charm env)) then
        Raise (ClusterNotReadyError default_message
                 "Charm has not finished initialising")
      else Ok tt.

  (** The [except] clauses of [pre_upgrade_check], lines 136-146, tried in
      order; [except Exception] takes every exception the first two left,
      those raised inside the [try] block included. *)
Definition handler (e : exn) : exn :=
    match e with
    | QuorumLeaderNotFoundError =>
        ClusterNotReadyError default_message "Quorum leader not found"
    | ConnectionClosedError =>
        ClusterNotReadyError default_message "Unable to connect to the cluster"
    | _ => ClusterNotReadyError default_message "Unknown error"
    end.

  (** [pre_upgrade_check], lines 108-146. *)
Definition pre_upgrade_check (env : Env) : result unit :=
    _ ← (if idle env
         then _set_rolling_update_partition env
                (length (ClusterState.servers (charm env)) - 1)
         else Ok tt) ;
    match checks env with
    | Ok _ => Ok tt
    | Raise e => Raise (handler e)
    end.

  (** The body of [post_upgrade_check], lines 99-106: one attempt. *)
Definition post_upgrade_check_body (env : Env) : result unit :=
    _ ← pre_upgrade_check env ;
    healthy ← workload_healthy env ;
    if negb healthy then
      Raise (ClusterNotReadyError
               "Post-upgrade check failed and cannot safely upgrade"
               "Container service not ruunning")
    else Ok tt.

  (** tenacity's [retry(stop=stop_after_attempt(n), reraise=True)]: attempt
      [attempt_number] is made; when it raises and [more] attempts are left
      the next one is made, otherwise the last exception is raised again.
      The random wait between attempts takes time only. *)
Fixpoint retry_from {A} (more attempt_number : nat) (fn : nat → result A)
    : result A :=
    match fn attempt_number with
    | Ok a => Ok a
    | Raise e =>
        match more with
        | 0 => Raise e
        | S more' => retry_from more' (S attempt_number) fn
        end
    end.

Definition retry {A} (stop_after_attempt : nat) (fn : nat → result A) : result A :=
    retry_from (stop_after_attempt - 1) 1 fn.

  (** [post_upgrade_check] under its decorator, line 97; [envs i] is what
      attempt number [i] meets. *)
Definition post_upgrade_check (envs : nat → Env) : result unit :=
    retry 5 (λ i, post_upgrade_check_body (envs i)).

End Upgrade.

(** ** Calls made during one run of a handler *)

Definition emitted (before after : Charm) : list Call :=
  drop (length (trace before)) (trace after).

(** The calls [init_server] makes when it starts the server, lines 247-258. *)
Definition start_calls : list Call :=
  [SetZookeeperMyid; SetServerJvmflags; SetZookeeperDynamicProperties;
   SetZookeeperProperties; SetJaasConfig; WorkloadStart].

(** ** Example deployments *)

Module Examples.

Definition node (id : N) (data : gmap string string) : ZKServer.t :=
  {| ZKServer.component := "zookeeper-k8s/" +:+ str id;
     ZKServer.unit_id := id;
     ZKServer.host := "zookeeper-k8s-" +:+ str id +:+ ".zookeeper-k8s-endpoints";
     ZKServer.relation_data := data |}.

Definition deployment (leader : bool) (unit : ZKServer.t)
    (peers : list ZKServer.t) (app_data : gmap string string) (tls : bool)
    (clients : list ZKClient.t) : Charm :=
  {| unit_name := ZKServer.component unit; is_leader := leader;
     peer_relation := true; alive := true;
     unit_server := unit; peer_servers := peers;
     cluster := {| ZKCluster.relation_data := app_data; ZKCluster.tls := tls |};
     clients := clients; status := ActiveStatus;
     applied_config := ""; trace := [] |}.

Definition passwords : gmap string string :=
  {[ "super-password" := "s3cret"; "sync-password" := "s3cret" ]}.

(** A started node that runs with port unification on, in mode [mode]. *)
Definition unified_node (id : N) (mode : string) : ZKServer.t :=
  node id {[ "state" := "started"; "unified" := "true"; "quorum" := mode ]}.

(** A started node that runs without port unification, in mode [mode]. *)
Definition plain_node (id : N) (mode : string) : ZKServer.t :=
  node id {[ "state" := "started"; "quorum" := mode ]}.

(** A node that has joined and has not started yet. *)
Definition joining_node (id : N) : ZKServer.t := node id ∅.

(** One unified node led by itself, certificates related, switch under way. *)
Definition switching_to_ssl : Charm :=
  deployment true (unified_node 0 "non-ssl") []
    ({[ "0" := "added"; "quorum" := "non-ssl";
        "switching-encryption" := "true" ]} ∪ passwords) true [].

(** The same once the node has restarted into the new mode. *)
Definition switched_to_ssl : Charm :=
  deployment true (unified_node 0 "ssl") []
    ({[ "0" := "added"; "quorum" := "ssl";
        "switching-encryption" := "true" ]} ∪ passwords) true [].

(** Two nodes, one of which has not restarted with port unification yet. *)
Definition half_unified : Charm :=
  deployment true (unified_node 0 "non-ssl") [plain_node 1 "non-ssl"]
    ({[ "0" := "added"; "1" := "added"; "quorum" := "non-ssl";
        "switching-encryption" := "true" ]} ∪ passwords) true [].

(** A fresh ensemble: the leader has started, nothing is written yet. *)
Definition bootstrap : Charm :=
  deployment true (plain_node 0 "default - non-ssl") [joining_node 1]
    passwords false [].

(** A follower that has not started and has no credentials to start with. *)
Definition waiting_for_passwords : Charm :=
  deployment false (joining_node 1) [plain_node 0 "non-ssl"] ∅ false [].

(** A started follower whose configuration on disk is out of date. *)
Definition stale_config : Charm :=
  deployment false (plain_node 1 "non-ssl") [plain_node 0 "non-ssl"]
    ({[ "0" := "added"; "1" := "added"; "quorum" := "non-ssl" ]} ∪ passwords)
    false [].

Definition provisioned_client : ZKClient.t :=
  {| ZKClient.uris := "zookeeper-k8s-0:2181/app";
     ZKClient.endpoints := "zookeeper-k8s-0:2181";
     ZKClient.tls := "disabled"; ZKClient.username := "relation-7";
     ZKClient.password := "pa55word"; ZKClient.chroot := "/app";
     ZKClient.relation_data := ∅ |}.

Definition unprovisioned_client : ZKClient.t :=
  {| ZKClient.uris := "zookeeper-k8s-0:2181/other";
     ZKClient.endpoints := "zookeeper-k8s-0:2181";
     ZKClient.tls := "disabled"; ZKClient.username := "relation-8";
     ZKClient.password := ""; ZKClient.chroot := "/other";
     ZKClient.relation_data := ∅ |}.

(** A settled single-node ensemble with two client relations. *)
Definition serving : Charm :=
  deployment true (plain_node 0 "non-ssl") []
    ({[ "0" := "added"; "quorum" := "non-ssl" ]} ∪ passwords) false
    [provisioned_client; unprovisioned_client].

(** What the probe answers on a settled single-node ensemble. *)
Definition quorum_settled : Upgrade.ZooKeeperManager :=
  {| Upgrade.members_broadcasting := Upgrade.Ok true;
     Upgrade.server_members := Upgrade.Ok ["server.1=zookeeper-k8s-0:2888:3888"];
     Upgrade.members_syncing := Upgrade.Ok false |}.

(** A member has stopped broadcasting. *)
Definition quorum_not_broadcasting : Upgrade.ZooKeeperManager :=
  {| Upgrade.members_broadcasting := Upgrade.Ok false;
     Upgrade.server_members := Upgrade.Ok ["server.1=zookeeper-k8s-0:2888:3888"];
     Upgrade.members_syncing := Upgrade.Ok false |}.

(** A member is syncing. *)
Definition quorum_syncing : Upgrade.ZooKeeperManager :=
  {| Upgrade.members_broadcasting := Upgrade.Ok true;
     Upgrade.server_members := Upgrade.Ok ["server.1=zookeeper-k8s-0:2888:3888"];
     Upgrade.members_syncing := Upgrade.Ok true |}.

(** What the probe answers on a two-node ensemble that broadcasts and has
    nothing to sync. *)
Definition quorum_of_two : Upgrade.ZooKeeperManager :=
  {| Upgrade.members_broadcasting := Upgrade.Ok true;
     Upgrade.server_members := Upgrade.Ok ["server.1=zookeeper-k8s-0:2888:3888";
                                           "server.2=zookeeper-k8s-1:2888:3888"];
     Upgrade.members_syncing := Upgrade.Ok false |}.

(** An attempt made while an upgrade is under way (not idle). *)
Definition attempt (zk : Upgrade.result Upgrade.ZooKeeperManager) (s : Charm)
  : Upgrade.Env :=
  {| Upgrade.idle := false; Upgrade.patch := None; Upgrade.client := zk;
     Upgrade.charm := s; Upgrade.workload_healthy := Upgrade.Ok true |}.

(** The first attempt meets a member that is not broadcasting; from the
    second on the ensemble has settled. *)
Definition transient (attempt_number : nat) : Upgrade.Env :=
  if (attempt_number <=? 1)%nat
  then attempt (Upgrade.Ok quorum_not_broadcasting) serving
  else attempt (Upgrade.Ok quorum_settled) serving.

(** [ready] taken to be [stable], and a rendering that never changes. *)
Definition ready_when_stable : Charm → bool := ClusterState.stable.
Definition render_zoo_cfg : Charm → string := λ _, "clientPort=2181".

End Examples.

(** * Properties *)

(** ** Keys *)

Lemma is_digit_pretty_N_char x : is_digit (pretty_N_char x) = true.
Proof. unfold pretty_N_char. by repeat case_match. Qed.

Lemma pretty_N_go_digits x s :
  s ≠ "" → all_digits s = true →
  pretty_N_go x s ≠ "" ∧ all_digits (pretty_N_go x s) = true.
Proof.
  revert s. induction (N.lt_wf_0 x) as [x _ IH]; intros s Hne Hs.
  assert (x = 0 ∨ 0 < x)%N as [->|?] by lia.
  - by rewrite pretty_N_go_0.
  - rewrite pretty_N_go_step by done. apply IH.
    + by apply N.div_lt.
    + done.
    + simpl. by rewrite is_digit_pretty_N_char.
Qed.

(** [str] of a unit id is a unit key. *)
Lemma is_unit_key_str n : is_unit_key (str n) = true.
Proof.
  unfold str, pretty, pretty_N. case_decide; [done|].
  rewrite pretty_N_go_step by lia.
  destruct (pretty_N_go_digits (n `div` 10)%N
              (String (pretty_N_char (n `mod` 10)) "")) as [Hne Hd].
  - done.
  - simpl. by rewrite is_digit_pretty_N_char.
  - unfold is_unit_key. rewrite Hd. by rewrite bool_decide_eq_false_2.
Qed.

Lemma str_inj n m : str n = str m → n = m.
Proof. apply (inj pretty). Qed.

(** ** Databags *)

Lemma dict_update_singleton k v (d : gmap string string) :
  dict_update {[ k := v ]} d = <[ k := v ]> d.
Proof. unfold dict_update. by rewrite insert_union_singleton_l. Qed.

Lemma dict_update_id (items d : gmap string string) :
  items ⊆ d → dict_update items d = d.
Proof. intros H. unfold dict_update. by apply map_subseteq_union. Qed.

Lemma dict_update_singleton_id k v (d : gmap string string) :
  d !! k = Some v → dict_update {[ k := v ]} d = d.
Proof. intros H. rewrite dict_update_singleton. by apply insert_id. Qed.

Lemma get_insert_eq k v (d : gmap string string) : get (<[ k := v ]> d) k = v.
Proof. unfold get. by rewrite lookup_insert_eq. Qed.

Lemma get_insert_ne k k' v (d : gmap string string) :
  k ≠ k' → get (<[ k := v ]> d) k' = get d k'.
Proof. intros H. unfold get. by rewrite lookup_insert_ne. Qed.

Lemma get_dict_update_Some items d k v :
  items !! k = Some v → get (dict_update items d) k = v.
Proof.
  intros Hk. unfold get, dict_update.
  by rewrite (lookup_union_Some_l _ _ _ _ Hk).
Qed.

Lemma get_dict_update_None items d k :
  items !! k = None → get (dict_update items d) k = get d k.
Proof. intros Hk. unfold get, dict_update. by rewrite lookup_union_r. Qed.

(** Reads do not tell the two representations of a write apart. *)
Lemma get_relation_set items d k :
  get (relation_set items d) k = get (dict_update items d) k.
Proof.
  destruct (items !! k) as [v|] eqn:Hk.
  - rewrite (get_dict_update_Some _ _ _ _ Hk). unfold get, relation_set.
    destruct (decide (v = EmptyString)) as [->|Hv].
    + rewrite lookup_union_r.
      * rewrite (proj2 (map_lookup_filter_None _ _ _)); [done|].
        right. intros v' _. cbn. by rewrite Hk.
      * apply map_lookup_filter_None. right. intros v' Hv'. cbn. congruence.
    + erewrite lookup_union_Some_l; [done|].
      by apply map_lookup_filter_Some.
  - rewrite (get_dict_update_None _ _ _ Hk). unfold get, relation_set.
    rewrite lookup_union_r.
    + destruct (d !! k) as [v|] eqn:Hd.
      * by rewrite (proj2 (map_lookup_filter_Some _ _ _ _) (conj Hd Hk)).
      * rewrite (proj2 (map_lookup_filter_None _ _ _)); [done|]. by left.
    + apply map_lookup_filter_None. by left.
Qed.

Lemma truthy_flag b : truthy (flag b) = b.
Proof. by destruct b. Qed.

(** Writing a key that names no unit leaves the membership entries alone. *)
Lemma membership_update_other k v c :
  is_unit_key k = false →
  ZKCluster.membership (ZKCluster.update {[ k := v ]} c) = ZKCluster.membership c.
Proof.
  intros Hk. unfold ZKCluster.membership, ZKCluster.update. simpl.
  rewrite dict_update_singleton. apply map_filter_insert_not.
  intros y [Hy _]. simpl in Hy. congruence.
Qed.

(** ** What [update_cluster] writes *)

Lemma update_cluster_lookup s k v :
  QuorumManager.update_cluster s !! k = Some v →
  v = "added" ∧ is_unit_key k = true.
Proof.
  unfold QuorumManager.update_cluster. intros H.
  apply elem_of_list_to_map_2 in H.
  apply list_elem_of_fmap in H as (srv & Heq & _).
  injection Heq as -> ->. split; [done | apply is_unit_key_str].
Qed.

(** A unit key marked "added" stays so when the recomputed membership is
    written over the databag. *)
Lemma update_cluster_keeps_added s k (d : gmap string string) :
  d !! k = Some "added" →
  dict_update (QuorumManager.update_cluster s) d !! k = Some "added".
Proof.
  intros H. unfold dict_update. apply lookup_union_Some_raw.
  destruct (QuorumManager.update_cluster s !! k) as [v|] eqn:E.
  - left. by destruct (update_cluster_lookup _ _ _ E) as [-> _].
  - by right.
Qed.

(** ** The reconciliation pass *)

Section Reconciliation.

Variable ready : Charm → bool.

  (** *** What each step leaves alone *)

Lemma update_client_data_cluster s :
    cluster (update_client_data ready s) = cluster s.
  Proof. unfold update_client_data. by case_match. Qed.

Lemma update_client_data_servers s :
    ClusterState.servers (update_client_data ready s) = ClusterState.servers s.
  Proof. unfold update_client_data. by case_match. Qed.

Lemma switch_encryption_servers s :
    ClusterState.servers (switch_encryption s) = ClusterState.servers s.
  Proof. unfold switch_encryption. by repeat case_match. Qed.

Lemma switch_encryption_tls s :
    ZKCluster.tls (cluster (switch_encryption s)) = ZKCluster.tls (cluster s).
  Proof. unfold switch_encryption. by repeat case_match. Qed.

Lemma switch_encryption_lookup s k :
    k ≠ "quorum" → k ≠ "switching-encryption" →
    ZKCluster.relation_data (cluster (switch_encryption s)) !! k
    = ZKCluster.relation_data (cluster s) !! k.
  Proof.
    intros Hq Hs. unfold switch_encryption.
    repeat case_match; simpl; rewrite ?dict_update_singleton;
      by rewrite ?lookup_insert_ne.
  Qed.

Lemma switch_encryption_membership s :
    ZKCluster.membership (cluster (switch_encryption s))
    = ZKCluster.membership (cluster s).
  Proof.
    unfold switch_encryption.
    repeat case_match; simpl; by rewrite ?membership_update_other.
  Qed.

Lemma update_members_servers event s :
    ClusterState.servers (update_members event s) = ClusterState.servers s.
  Proof. unfold update_members. by case_match. Qed.

Lemma add_init_leader_servers s :
    ClusterState.servers (add_init_leader s) = ClusterState.servers s.
  Proof. unfold add_init_leader. by repeat case_match. Qed.

  (** A unit key marked "added" survives the rest of the pass. *)
Lemma update_members_keeps_added event s k :
    ZKCluster.relation_data (cluster s) !! k = Some "added" →
    ZKCluster.relation_data (cluster (update_members event s)) !! k = Some "added".
  Proof.
    intros H. unfold update_members. case_match; [|done].
    simpl. by apply update_cluster_keeps_added.
  Qed.

Lemma unit_key_ne k k' : is_unit_key k = true → is_unit_key k' = false → k ≠ k'.
  Proof. intros H H' ->. congruence. Qed.

  (** The outcome of a pass that went past the guard of line 278. *)
Lemma update_quorum_reconciles event s :
    reconciles event s = true →
    update_quorum ready event s
    = let s2 := update_members event (add_init_leader s) in
      if ClusterState.stable s2
      then update_client_data ready (switch_encryption s2) else s2.
  Proof.
    unfold reconciles, update_quorum. intros [Hl Hd]%andb_true_iff.
    rewrite Hl. apply negb_true_iff in Hd. rewrite Hd.
    cbn [negb orb]. cbv zeta.
    destruct (ClusterState.stable _); reflexivity.
  Qed.

Lemma update_quorum_skips event s :
    reconciles event s = false → update_quorum ready event s = s.
  Proof.
    unfold reconciles, update_quorum. intros H.
    destruct (is_leader s); cbn [negb orb andb] in *; [|reflexivity].
    apply negb_false_iff in H. rewrite H. reflexivity.
  Qed.

  (** C4. In every reconciliation pass of the coordinator (the unit is the
      leader and the event is not its own departure, line 278), an init
      leader, the node of lowest unit id, that reports started ends the pass
      with the "added" marker in the shared membership set.  Nothing else is
      asked of the state: neither stability, nor that all units are related,
      nor any condition on a predecessor. *)
Theorem init_leader_added event s init_leader :
    reconciles event s = true →
    ClusterState.init_leader s = Some init_leader →
    ZKServer.started init_leader = true →
    ZKCluster.membership (cluster (update_quorum ready event s))
      !! str (ZKServer.unit_id init_leader) = Some "added".
  Proof.
    intros Hrec Hinit Hstarted.
    pose proof (is_unit_key_str (ZKServer.unit_id init_leader)) as Hkey.
    unfold ZKCluster.membership. apply map_lookup_filter_Some. split; [|done].
    rewrite update_quorum_reconciles by done. cbv zeta.
    assert (ZKCluster.relation_data
              (cluster (update_members event (add_init_leader s)))
              !! str (ZKServer.unit_id init_leader) = Some "added") as H2.
    { apply update_members_keeps_added. unfold add_init_leader.
      rewrite Hinit, Hstarted. simpl. rewrite dict_update_singleton.
      apply lookup_insert_eq. }
    case_match; [|done].
    rewrite update_client_data_cluster, switch_encryption_lookup; [done|..];
      by apply unit_key_ne.
  Qed.

  (** *** The encryption-mode switch *)

Lemma update_cluster_not_unit_key s k :
    is_unit_key k = false → QuorumManager.update_cluster s !! k = None.
  Proof.
    intros Hk. destruct (QuorumManager.update_cluster s !! k) eqn:E; [|done].
    apply update_cluster_lookup in E as [_ E]. congruence.
  Qed.

  (** Lines 281-299 write unit keys only. *)
Lemma membership_steps_lookup event s k :
    is_unit_key k = false →
    ZKCluster.relation_data (cluster (update_members event (add_init_leader s))) !! k
    = ZKCluster.relation_data (cluster s) !! k.
  Proof.
    intros Hk. transitivity (ZKCluster.relation_data (cluster (add_init_leader s)) !! k).
    - unfold update_members. case_match; [|done]. simpl. unfold dict_update.
      rewrite lookup_union_r; [done|]. by apply update_cluster_not_unit_key.
    - unfold add_init_leader. repeat case_match; try done. simpl.
      rewrite dict_update_singleton, lookup_insert_ne; [done|].
      apply unit_key_ne; [apply is_unit_key_str | done].
  Qed.

Lemma membership_steps_servers event s :
    ClusterState.servers (update_members event (add_init_leader s))
    = ClusterState.servers s.
  Proof. by rewrite update_members_servers, add_init_leader_servers. Qed.

Lemma membership_steps_tls event s :
    ZKCluster.tls (cluster (update_members event (add_init_leader s)))
    = ZKCluster.tls (cluster s).
  Proof. unfold update_members, add_init_leader. by repeat case_match. Qed.

Lemma all_units_unified_servers s s' :
    ClusterState.servers s = ClusterState.servers s' →
    ClusterState.all_units_unified s = ClusterState.all_units_unified s'.
  Proof. unfold ClusterState.all_units_unified. by intros ->. Qed.

Lemma all_units_unified_true s :
    ClusterState.all_units_unified s = true
    ↔ ∀ srv, srv ∈ ClusterState.servers s → ZKServer.unified srv = true.
  Proof.
    unfold ClusterState.all_units_unified. rewrite forallb_forall.
    by setoid_rewrite list_elem_of_In.
  Qed.

Lemma all_units_unified_false s :
    ClusterState.all_units_unified s = false
    ↔ ∃ srv, srv ∈ ClusterState.servers s ∧ ZKServer.unified srv = false.
  Proof.
    unfold ClusterState.all_units_unified. split.
    - intros H. induction (ClusterState.servers s) as [|srv l IH]; [done|].
      simpl in H. apply andb_false_iff in H as [H|H].
      + exists srv. split; [left | done].
      + destruct (IH H) as (x & Hx & Hu). exists x. split; [by right | done].
    - intros (srv & Hin & Hu). apply not_true_is_false. intros Hall.
      rewrite forallb_forall in Hall. apply list_elem_of_In, Hall in Hin. congruence.
  Qed.

Lemma all_units_quorum_true s :
    ClusterState.all_units_quorum s = true
    ↔ ∀ srv, srv ∈ ClusterState.servers s →
             ZKServer.quorum srv = ZKCluster.quorum (cluster s).
  Proof.
    unfold ClusterState.all_units_quorum. rewrite forallb_forall.
    setoid_rewrite list_elem_of_In. by setoid_rewrite bool_decide_eq_true.
  Qed.

Lemma switch_encryption_unified_quorum s :
    ClusterState.all_units_unified s = true →
    ZKCluster.quorum (cluster (switch_encryption s)) = target_mode s.
  Proof.
    intros H. unfold switch_encryption, target_mode. rewrite H.
    repeat case_match; simpl; unfold ZKCluster.quorum; simpl;
      rewrite ?dict_update_singleton;
      rewrite ?(get_insert_ne "switching-encryption") by done;
      by rewrite get_insert_eq.
  Qed.

  (** C1. In a reconciliation pass of the coordinator that finds the cluster
      stable (line 303) while every node's unified flag is true, the target
      quorum mode becomes "ssl" when a certificate relation is present and
      "non-ssl" otherwise; and whatever the event and the state, a pass leaves
      the target mode as it was while some node's unified flag is false. *)
Theorem target_mode_follows_unified event s :
    (reconciles event s = true →
     ClusterState.stable (at_stability_check event s) = true →
     (∀ srv, srv ∈ ClusterState.servers s → ZKServer.unified srv = true) →
     ZKCluster.quorum (cluster (update_quorum ready event s))
     = if ZKCluster.tls (cluster s) then "ssl" else "non-ssl")
    ∧ ((∃ srv, srv ∈ ClusterState.servers s ∧ ZKServer.unified srv = false) →
       ZKCluster.quorum (cluster (update_quorum ready event s))
       = ZKCluster.quorum (cluster s)).
  Proof.
    split.
    - intros Hrec Hstable Hall. rewrite update_quorum_reconciles by done.
      cbv zeta. fold (at_stability_check event s). rewrite Hstable.
      rewrite update_client_data_cluster, switch_encryption_unified_quorum.
      + unfold target_mode, at_stability_check. by rewrite membership_steps_tls.
      + apply all_units_unified_true. intros srv Hin. apply Hall.
        unfold at_stability_check in Hin. by rewrite membership_steps_servers in Hin.
    - intros Hsome%all_units_unified_false.
      destruct (reconciles event s) eqn:Hrec;
        [|by rewrite update_quorum_skips].
      rewrite update_quorum_reconciles by done. cbv zeta.
      assert (ZKCluster.quorum (cluster (update_members event (add_init_leader s)))
              = ZKCluster.quorum (cluster s)) as Hq.
      { unfold ZKCluster.quorum, get. by rewrite membership_steps_lookup. }
      case_match; [|done].
      rewrite update_client_data_cluster. unfold switch_encryption.
      rewrite (all_units_unified_servers _ s), Hsome; [done|].
      apply membership_steps_servers.
  Qed.

  (** C2. When a pass of [update_quorum] starts with the switching-encryption
      flag set and ends with it cleared, every node's reported quorum field
      equals the target mode the pass has just set: the flag is not cleared
      while some node reports another mode. *)
Theorem switching_cleared_after_all_units_quorum event s :
    ZKCluster.switching_encryption (cluster s) = true →
    ZKCluster.switching_encryption (cluster (update_quorum ready event s)) = false →
    ZKCluster.quorum (cluster (update_quorum ready event s)) = target_mode s
    ∧ ∀ srv, srv ∈ ClusterState.servers (update_quorum ready event s) →
             ZKServer.quorum srv
             = ZKCluster.quorum (cluster (update_quorum ready event s)).
  Proof.
    intros Hset Hclear.
    destruct (reconciles event s) eqn:Hrec;
      [|rewrite update_quorum_skips in Hclear by done; congruence].
    rewrite update_quorum_reconciles in * by done. cbv zeta in *.
    set (s2 := update_members event (add_init_leader s)) in *.
    assert (ZKCluster.switching_encryption (cluster s2) = true) as Hset2.
    { unfold ZKCluster.switching_encryption, get in *. subst s2.
      by rewrite membership_steps_lookup. }
    destruct (ClusterState.stable s2); [|congruence].
    rewrite update_client_data_cluster in *.
    rewrite update_client_data_servers.
    unfold switch_encryption in *.
    destruct (ClusterState.all_units_unified s2) eqn:Hu; [|congruence].
    assert (target_mode s = target_mode s2) as ->.
    { unfold target_mode. subst s2. by rewrite membership_steps_tls. }
    unfold target_mode.
    set (s3 := if ZKCluster.tls (cluster s2) then _ else _) in *.
    assert (ZKCluster.switching_encryption (cluster s3) = true) as Hset3.
    { subst s3. unfold ZKCluster.switching_encryption in *.
      destruct (ZKCluster.tls (cluster s2)); simpl;
        by rewrite dict_update_singleton, get_insert_ne. }
    assert (ZKCluster.quorum (cluster s3)
            = if ZKCluster.tls (cluster s2) then "ssl" else "non-ssl") as Hq3.
    { subst s3. unfold ZKCluster.quorum.
      destruct (ZKCluster.tls (cluster s2)); simpl;
        by rewrite dict_update_singleton, get_insert_eq. }
    destruct (ClusterState.all_units_quorum s3) eqn:Hq; [|congruence].
    assert (ZKCluster.quorum
              (cluster (set_cluster (ZKCluster.update {[ "switching-encryption" := "" ]}) s3))
            = ZKCluster.quorum (cluster s3)) as Hsame.
    { unfold ZKCluster.quorum. simpl. by rewrite dict_update_singleton, get_insert_ne. }
    split; [congruence|].
    intros srv Hin. rewrite Hsame.
    by apply (proj1 (all_units_quorum_true s3) Hq).
  Qed.

  (** *** Idempotence *)

Lemma set_cluster_id f s : f (cluster s) = cluster s → set_cluster f s = s.
  Proof. intros H. destruct s. unfold set_cluster. simpl in *. by rewrite H. Qed.

Lemma set_cluster_update_id items s :
    items ⊆ ZKCluster.relation_data (cluster s) →
    set_cluster (ZKCluster.update items) s = s.
  Proof.
    intros H. apply set_cluster_id. unfold ZKCluster.update.
    rewrite dict_update_id by done. by destruct (cluster s).
  Qed.

Lemma set_cluster_singleton_id k v s :
    ZKCluster.relation_data (cluster s) !! k = Some v →
    set_cluster (ZKCluster.update {[ k := v ]}) s = s.
  Proof. intros H. by apply set_cluster_update_id, map_singleton_subseteq_l. Qed.

Lemma init_leader_servers s s' :
    ClusterState.servers s = ClusterState.servers s' →
    ClusterState.init_leader s = ClusterState.init_leader s'.
  Proof. unfold ClusterState.init_leader. by intros ->. Qed.

Lemma started_servers_servers s s' :
    ClusterState.servers s = ClusterState.servers s' →
    ClusterState.started_servers s = ClusterState.started_servers s'.
  Proof. unfold ClusterState.started_servers. by intros ->. Qed.

Lemma healthy_servers s s' :
    ClusterState.servers s = ClusterState.servers s' →
    ClusterState.healthy s = ClusterState.healthy s'.
  Proof. unfold ClusterState.healthy. by intros ->. Qed.

Lemma update_cluster_servers s s' :
    ClusterState.servers s = ClusterState.servers s' →
    QuorumManager.update_cluster s = QuorumManager.update_cluster s'.
  Proof.
    intros H. unfold QuorumManager.update_cluster.
    by rewrite (started_servers_servers _ _ H).
  Qed.

Lemma stale_quorum_ext s s' :
    ClusterState.servers s = ClusterState.servers s' →
    ZKCluster.membership (cluster s) = ZKCluster.membership (cluster s') →
    ClusterState.stale_quorum s = ClusterState.stale_quorum s'.
  Proof.
    intros Hs Hm. unfold ClusterState.stale_quorum.
    by rewrite Hm, (started_servers_servers _ _ Hs).
  Qed.

Lemma all_units_quorum_ext s s' :
    ClusterState.servers s = ClusterState.servers s' →
    ZKCluster.quorum (cluster s) = ZKCluster.quorum (cluster s') →
    ClusterState.all_units_quorum s = ClusterState.all_units_quorum s'.
  Proof. unfold ClusterState.all_units_quorum. by intros -> ->. Qed.

  (** [publish] writes values that it does not read back. *)
Lemma publish_idempotent client : publish (publish client) = publish client.
  Proof.
    unfold publish. destruct (negb (truthy (ZKClient.password client))) eqn:E.
    - by rewrite E.
    - simpl. rewrite E. unfold ZKClient.update. simpl. f_equal.
      unfold dict_update. by rewrite (assoc_L (∪)), (idemp_L (∪)).
  Qed.

Lemma update_client_data_idempotent s :
    update_client_data ready (update_client_data ready s)
    = update_client_data ready s.
  Proof.
    destruct (negb (ready s) || negb (is_leader s)) eqn:E.
    - assert (update_client_data ready s = s) as ->
        by (unfold update_client_data; by rewrite E).
      unfold update_client_data. by rewrite E.
    - assert (update_client_data ready s = set_clients (fmap publish) s) as ->
        by (unfold update_client_data; by rewrite E).
      unfold update_client_data. case_match; [done|].
      unfold set_clients. simpl. f_equal.
      rewrite <- list_fmap_compose. apply list_fmap_ext.
      intros i c _. apply publish_idempotent.
  Qed.

Lemma switch_encryption_eta s :
    switch_encryption s = set_cluster (λ _, cluster (switch_encryption s)) s.
  Proof. unfold switch_encryption. repeat case_match; by destruct s. Qed.

Lemma switch_encryption_cluster_ext s s' :
    ClusterState.servers s = ClusterState.servers s' →
    cluster s = cluster s' →
    cluster (switch_encryption s) = cluster (switch_encryption s').
  Proof.
    intros Hs Hc. unfold switch_encryption.
    rewrite (all_units_unified_servers _ _ Hs).
    destruct (ClusterState.all_units_unified s'); [|done].
    rewrite Hc. destruct (ZKCluster.tls (cluster s')).
    - rewrite (all_units_quorum_ext
                 (set_cluster (ZKCluster.update {[ "quorum" := "ssl" ]}) s)
                 (set_cluster (ZKCluster.update {[ "quorum" := "ssl" ]}) s'));
        [| done | simpl; by rewrite Hc].
      case_match; simpl; by rewrite Hc.
    - rewrite (all_units_quorum_ext
                 (set_cluster (ZKCluster.update {[ "quorum" := "non-ssl" ]}) s)
                 (set_cluster (ZKCluster.update {[ "quorum" := "non-ssl" ]}) s'));
        [| done | simpl; by rewrite Hc].
      case_match; simpl; by rewrite Hc.
  Qed.

  (** Once switched, a state is a fixed point of the switch. *)
Lemma switch_encryption_idempotent s :
    switch_encryption (switch_encryption s) = switch_encryption s.
  Proof.
    unfold switch_encryption at 1.
    rewrite (all_units_unified_servers _ s) by apply switch_encryption_servers.
    destruct (ClusterState.all_units_unified s) eqn:Hu; [|done].
    rewrite switch_encryption_tls.
    assert (ZKCluster.relation_data (cluster (switch_encryption s)) !! "quorum"
            = Some (target_mode s)) as Hq.
    { unfold switch_encryption, target_mode. rewrite Hu.
      repeat case_match; simpl; rewrite ?dict_update_singleton;
        rewrite ?(lookup_insert_ne _ "switching-encryption") by done;
        by rewrite lookup_insert_eq. }
    assert ((if ZKCluster.tls (cluster s)
             then set_cluster (ZKCluster.update {[ "quorum" := "ssl" ]})
                    (switch_encryption s)
             else set_cluster (ZKCluster.update {[ "quorum" := "non-ssl" ]})
                    (switch_encryption s))
            = switch_encryption s) as ->.
    { unfold target_mode in Hq.
      destruct (ZKCluster.tls (cluster s)); by apply set_cluster_singleton_id. }
    destruct (ClusterState.all_units_quorum (switch_encryption s)) eqn:Ha; [|done].
    apply set_cluster_singleton_id.
    revert Ha. unfold switch_encryption. rewrite Hu.
    set (s3 := if ZKCluster.tls (cluster s) then _ else _).
    destruct (ClusterState.all_units_quorum s3) eqn:Ha3.
    - intros _. simpl. rewrite dict_update_singleton. apply lookup_insert_eq.
    - congruence.
  Qed.

  (** The tail of a pass, lines 303-324, leaves servers and unit keys alone. *)
Lemma update_quorum_servers event s :
    ClusterState.servers (update_quorum ready event s) = ClusterState.servers s.
  Proof.
    destruct (reconciles event s) eqn:Hrec; [|by rewrite update_quorum_skips].
    rewrite update_quorum_reconciles by done. cbv zeta.
    case_match.
    - by rewrite update_client_data_servers, switch_encryption_servers,
        membership_steps_servers.
    - apply membership_steps_servers.
  Qed.

Lemma update_quorum_unit_key event s k :
    reconciles event s = true → is_unit_key k = true →
    ZKCluster.relation_data (cluster (update_quorum ready event s)) !! k
    = ZKCluster.relation_data (cluster (at_stability_check event s)) !! k.
  Proof.
    intros Hrec Hk. rewrite update_quorum_reconciles by done. cbv zeta.
    fold (at_stability_check event s). case_match; [|done].
    rewrite update_client_data_cluster.
    apply switch_encryption_lookup; by apply unit_key_ne.
  Qed.

Lemma update_quorum_membership event s :
    reconciles event s = true →
    ZKCluster.membership (cluster (update_quorum ready event s))
    = ZKCluster.membership (cluster (at_stability_check event s)).
  Proof.
    intros Hrec. rewrite update_quorum_reconciles by done. cbv zeta.
    fold (at_stability_check event s). case_match; [|done].
    by rewrite update_client_data_cluster, switch_encryption_membership.
  Qed.

Lemma update_quorum_reconciles_again event s :
    reconciles event (update_quorum ready event s) = reconciles event s.
  Proof.
    unfold reconciles, update_quorum, update_client_data, switch_encryption,
      update_members, add_init_leader.
    by repeat case_match.
  Qed.

Lemma init_leader_marked event s init_leader :
    ClusterState.init_leader s = Some init_leader →
    ZKServer.started init_leader = true →
    ZKCluster.relation_data (cluster (at_stability_check event s))
      !! str (ZKServer.unit_id init_leader) = Some "added".
  Proof.
    intros Hinit Hstarted. unfold at_stability_check.
    apply update_members_keeps_added. unfold add_init_leader.
    rewrite Hinit, Hstarted. simpl. rewrite dict_update_singleton.
    apply lookup_insert_eq.
  Qed.

  (** After a pass, the init leader is already marked. *)
Lemma add_init_leader_after_pass event s :
    reconciles event s = true →
    add_init_leader (update_quorum ready event s) = update_quorum ready event s.
  Proof.
    intros Hrec. unfold add_init_leader.
    rewrite (init_leader_servers _ s) by apply update_quorum_servers.
    destruct (ClusterState.init_leader s) as [l|] eqn:Hinit; [|done].
    destruct (ZKServer.started l) eqn:Hstarted; [|done].
    apply set_cluster_singleton_id.
    rewrite update_quorum_unit_key by (done || apply is_unit_key_str).
    by apply init_leader_marked.
  Qed.

  (** After a pass, the recomputed membership is already written. *)
Lemma update_members_after_pass event s :
    reconciles event s = true →
    update_members event (update_quorum ready event s)
    = update_quorum ready event s.
  Proof.
    intros Hrec. unfold update_members at 1.
    set (t := update_quorum ready event s).
    assert (ClusterState.servers t = ClusterState.servers (add_init_leader s)) as Hsrv.
    { subst t. by rewrite update_quorum_servers, add_init_leader_servers. }
    assert (ZKCluster.membership (cluster t)
            = ZKCluster.membership (cluster (at_stability_check event s))) as Hmem
      by (by apply update_quorum_membership).
    destruct (ClusterState.stale_quorum t || is_departed_or_elected event
              || ClusterState.healthy t) eqn:Hcond; [|done].
    apply set_cluster_update_id.
    rewrite (update_cluster_servers _ _ Hsrv).
    (* the first pass took the same branch *)
    assert (ClusterState.stale_quorum (add_init_leader s)
            || is_departed_or_elected event
            || ClusterState.healthy (add_init_leader s) = true) as Hcond1.
    { destruct (ClusterState.stale_quorum (add_init_leader s)
                || is_departed_or_elected event
                || ClusterState.healthy (add_init_leader s)) eqn:E; [done|].
      rewrite <- Hcond, <- E. f_equal; [f_equal|].
      - apply stale_quorum_ext; [done|]. rewrite Hmem.
        unfold at_stability_check, update_members. by rewrite E.
      - by apply healthy_servers. }
    apply map_subseteq_spec. intros k v Hkv.
    destruct (update_cluster_lookup _ _ _ Hkv) as [_ Hk].
    subst t. rewrite update_quorum_unit_key by done.
    unfold at_stability_check, update_members. rewrite Hcond1. simpl.
    unfold dict_update. by apply lookup_union_Some_l.
  Qed.

  (** After a pass, the tail of another pass changes nothing. *)
Lemma tail_after_pass event s :
    reconciles event s = true →
    let t := update_quorum ready event s in
    (if ClusterState.stable t
     then update_client_data ready (switch_encryption t) else t) = t.
  Proof.
    intros Hrec t. destruct (ClusterState.stable t) eqn:Hst; [|done].
    revert Hst. subst t. rewrite update_quorum_reconciles by done. cbv zeta.
    set (s2 := update_members event (add_init_leader s)).
    destruct (ClusterState.stable s2) eqn:Hst2; [intros _ | congruence].
    set (u := switch_encryption s2).
    assert (switch_encryption (update_client_data ready u)
            = update_client_data ready u) as ->.
    { rewrite switch_encryption_eta. apply set_cluster_id.
      rewrite (switch_encryption_cluster_ext _ u).
      - subst u. by rewrite switch_encryption_idempotent,
          update_client_data_cluster.
      - apply update_client_data_servers.
      - apply update_client_data_cluster. }
    apply update_client_data_idempotent.
  Qed.

  (** C3. [update_quorum] is idempotent: whatever the event and the state, a
      second call that follows the first with nothing changed in between
      leaves the state the first call produced. *)
Theorem update_quorum_idempotent event s :
    update_quorum ready event (update_quorum ready event s)
    = update_quorum ready event s.
  Proof.
    destruct (reconciles event s) eqn:Hrec.
    - rewrite (update_quorum_reconciles event (update_quorum ready event s))
        by (by rewrite update_quorum_reconciles_again).
      cbv zeta.
      rewrite add_init_leader_after_pass, update_members_after_pass by done.
      exact (tail_after_pass event s Hrec).
    - rewrite (update_quorum_skips event s Hrec). by apply update_quorum_skips.
  Qed.

End Reconciliation.

(** ** Event handlers *)

Section Handlers.

Local Open Scope list_scope.

Variable ready : Charm → bool.
Variable render : Charm → string.

Lemma emitted_app s s' l : trace s' = trace s ++ l → emitted s s' = l.
Proof. unfold emitted. intros ->. by rewrite drop_app_length. Qed.

Lemma update_client_data_trace s : trace (update_client_data ready s) = trace s.
Proof. unfold update_client_data. by case_match. Qed.

Lemma update_quorum_trace event s : trace (update_quorum ready event s) = trace s.
Proof.
  unfold update_quorum, update_client_data, switch_encryption, update_members,
    add_init_leader.
  by repeat case_match.
Qed.

Lemma update_quorum_unit_name event s :
  unit_name (update_quorum ready event s) = unit_name s.
Proof.
  unfold update_quorum, update_client_data, switch_encryption, update_members,
    add_init_leader.
  by repeat case_match.
Qed.

Lemma update_quorum_unit_server event s :
  unit_server (update_quorum ready event s) = unit_server s.
Proof.
  unfold update_quorum, update_client_data, switch_encryption, update_members,
    add_init_leader.
  by repeat case_match.
Qed.

Lemma init_server_unit_name s : unit_name (init_server render s) = unit_name s.
Proof. unfold init_server. by repeat case_match. Qed.

(** [init_server] either makes no call or makes the six calls of a start. *)
Lemma init_server_trace s :
  trace (init_server render s) = trace s
  ∨ trace (init_server render s) = trace s ++ start_calls.
Proof.
  unfold init_server. repeat case_match; try (by left).
  right. simpl. by rewrite <- !(assoc_L (++)).
Qed.

Lemma start_attempt_trace s :
  ∃ l, trace (if negb (ZKServer.started (unit_server s))
              then init_server render s else s) = trace s ++ l
       ∧ (l = [] ∨ l = start_calls).
Proof.
  destruct (negb (ZKServer.started (unit_server s))).
  - destruct (init_server_trace s) as [Ht|Ht].
    + exists []. rewrite Ht. split; [by rewrite app_nil_r | by left].
    + exists start_calls. split; [done | by right].
  - exists []. split; [by rewrite app_nil_r | by left].
Qed.

Lemma AcquireLock_not_started l :
  l = [] ∨ l = start_calls → AcquireLock ∉ l.
Proof.
  intros [-> | ->]; [apply not_elem_of_nil|].
  unfold start_calls. rewrite !elem_of_cons, elem_of_nil. intros H.
  repeat (destruct H as [H|H]; [discriminate H|]). exact H.
Qed.

Lemma before_restart_check_trace event s :
  ∃ l, trace (before_restart_check ready render event s) = trace s ++ l
       ∧ (l = [] ∨ l = start_calls).
Proof.
  unfold before_restart_check. rewrite update_quorum_trace.
  apply start_attempt_trace.
Qed.

Lemma before_restart_check_unit_name event s :
  unit_name (before_restart_check ready render event s) = unit_name s.
Proof.
  unfold before_restart_check. rewrite update_quorum_unit_name.
  case_match; [apply init_server_unit_name | done].
Qed.

Lemma call_trace c s : trace (call c s) = trace s ++ [c].
Proof. reflexivity. Qed.

Lemma config_changed_fst s :
  (config_changed render s).1 = negb (bool_decide (render s = applied_config s)).
Proof. unfold config_changed. by case_match. Qed.

Lemma config_changed_cluster s : cluster (config_changed render s).2 = cluster s.
Proof. unfold config_changed. by case_match. Qed.

Lemma config_changed_unit_server s :
  unit_server (config_changed render s).2 = unit_server s.
Proof. unfold config_changed. by case_match. Qed.

Lemma config_changed_trace s : trace (config_changed render s).2 = trace s.
Proof. unfold config_changed. by case_match. Qed.

(** The handler past its first two gates, in terms of the state it has
    reached at line 158. *)
Lemma handler_past_gates event s :
  alive s = true → peer_relation s = true →
  _on_cluster_relation_changed ready render event s
  = let s2 := before_restart_check ready render event s in
    if bool_decide (departing_unit event = Some (unit_name s2)) then s2
    else
      let cc := config_changed render s2 in
      let s4 := if (cc.1 || ZKCluster.switching_encryption (cluster cc.2))
                   && ZKServer.started (unit_server cc.2)
                then call AcquireLock cc.2 else cc.2 in
      if ZKCluster.switching_encryption (cluster s4)
         && bool_decide (length (ClusterState.servers s4) = 1%nat)
      then call Defer s4 else s4.
Proof.
  intros Ha Hp. unfold _on_cluster_relation_changed. rewrite Ha, Hp.
  cbn [negb]. cbv zeta. fold (before_restart_check ready render event s).
  destruct (bool_decide _); [reflexivity|].
  destruct (config_changed render _) as [changed s3]. reflexivity.
Qed.

(** C6. When the departing unit of the event is the unit itself, the handler
    emits no restart-lock acquisition for that event: whatever it calls
    during the run, [acquire_lock] is not among it. *)
Theorem no_restart_signal_on_own_departure event s :
  departing_unit event = Some (unit_name s) →
  AcquireLock ∉ emitted s (_on_cluster_relation_changed ready render event s).
Proof.
  intros Hdep.
  destruct (alive s) eqn:Ha.
  - destruct (peer_relation s) eqn:Hp.
    + rewrite handler_past_gates by done. cbv zeta.
      rewrite before_restart_check_unit_name, Hdep, bool_decide_eq_true_2 by done.
      destruct (before_restart_check_trace event s) as (l & Hl & Hcases).
      rewrite (emitted_app _ _ _ Hl). by apply AcquireLock_not_started.
    + unfold _on_cluster_relation_changed. rewrite Ha, Hp. cbn [negb].
      rewrite (emitted_app s s []) by (by rewrite app_nil_r).
      apply not_elem_of_nil.
  - unfold _on_cluster_relation_changed. rewrite Ha. cbn [negb].
    rewrite (emitted_app s (call Defer s) [Defer]) by reflexivity.
    intros H%list_elem_of_singleton. discriminate H.
Qed.

(** C5, as the code has it.  For an event the handler processes past its
    gates (workload alive, peer relation present, not the unit's own
    departure), the restart lock is requested if and only if the rendered
    configuration differs from the applied one or the switching-encryption
    flag is set, and the unit has reported started; all three are read at
    line 158, after the start attempt and the quorum update. *)
Theorem restart_lock_requested_iff event s :
  alive s = true → peer_relation s = true →
  departing_unit event ≠ Some (unit_name s) →
  let s2 := before_restart_check ready render event s in
  AcquireLock ∈ emitted s (_on_cluster_relation_changed ready render event s)
  ↔ (render s2 ≠ applied_config s2
     ∨ ZKCluster.switching_encryption (cluster s2) = true)
    ∧ ZKServer.started (unit_server s2) = true.
Proof.
  intros Ha Hp Hdep s2. rewrite handler_past_gates by done. cbv zeta.
  fold s2. subst s2.
  rewrite before_restart_check_unit_name, bool_decide_eq_false_2 by done.
  destruct (before_restart_check_trace event s) as (l & Hl & Hcases).
  pose proof (AcquireLock_not_started l Hcases) as Hnot.
  set (s2 := before_restart_check ready render event s) in *.
  rewrite config_changed_fst, config_changed_cluster, config_changed_unit_server.
  set (cond := (negb (bool_decide (render s2 = applied_config s2))
                || ZKCluster.switching_encryption (cluster s2))
               && ZKServer.started (unit_server s2)).
  assert (cond = true
          ↔ (render s2 ≠ applied_config s2
             ∨ ZKCluster.switching_encryption (cluster s2) = true)
            ∧ ZKServer.started (unit_server s2) = true) as Hcond.
  { subst cond.
    by rewrite andb_true_iff, orb_true_iff, negb_true_iff, bool_decide_eq_false. }
  rewrite <- Hcond. clear Hcond. clearbody cond.
  set (s4 := if cond then call AcquireLock _ else _).
  assert (trace s4 = trace s ++ l ++ (if cond then [AcquireLock] else [])) as Hs4.
  { subst s4. destruct cond.
    - by rewrite call_trace, config_changed_trace, Hl, <- (assoc_L (++)).
    - by rewrite config_changed_trace, Hl, app_nil_r. }
  clearbody s4.
  assert (∃ d, (d = [] ∨ d = [Defer])
               ∧ trace (if ZKCluster.switching_encryption (cluster s4)
                           && bool_decide (length (ClusterState.servers s4) = 1%nat)
                        then call Defer s4 else s4)
                 = trace s ++ (l ++ (if cond then [AcquireLock] else []) ++ d))
    as (d & Hd & Htrace).
  { destruct (_ && _).
    - exists [Defer]. split; [by right|].
      by rewrite call_trace, Hs4, <- !(assoc_L (++)).
    - exists []. split; [by left|].
      by rewrite Hs4, app_nil_r. }
  rewrite (emitted_app _ _ _ Htrace), !elem_of_app.
  destruct cond.
  - split; [done|]. intros _. right. left. by apply list_elem_of_singleton.
  - split; [|done]. intros [H|[H|H]].
    + by apply Hnot in H.
    + by apply elem_of_nil in H.
    + destruct Hd as [-> | ->].
      * by apply elem_of_nil in H.
      * apply list_elem_of_singleton in H. discriminate H.
Qed.




Lemma update_client_data_unit_server s :
  unit_server (update_client_data ready s) = unit_server s.
Proof. unfold update_client_data. by case_match. Qed.

Lemma update_client_data_status s :
  status (update_client_data ready s) = status s.
Proof. unfold update_client_data. by case_match. Qed.

(** C10. While the cluster is not stable, [_restart] defers the event and
    does nothing else: the workload is not restarted and the unit's server
    data, the cluster data, the clients and the status stay as they were.
    When the cluster is stable the workload is restarted, the event is not
    deferred, and the unit publishes its flags from the cluster data: what
    its server then reports as unified, quorum and password-rotated is the
    cluster's switching-encryption flag, target mode and rotate-passwords
    flag. *)
Theorem restart_only_when_stable s :
  (ClusterState.stable s = false →
     emitted s (_restart ready s) = [Defer]
     ∧ unit_server (_restart ready s) = unit_server s
     ∧ cluster (_restart ready s) = cluster s
     ∧ clients (_restart ready s) = clients s
     ∧ status (_restart ready s) = status s)
  ∧ (ClusterState.stable s = true →
     emitted s (_restart ready s) = [WorkloadRestart; Sleep 5]
     ∧ status (_restart ready s) = ActiveStatus
     ∧ cluster (_restart ready s) = cluster s
     ∧ ZKServer.unified (unit_server (_restart ready s))
       = ZKCluster.switching_encryption (cluster s)
     ∧ ZKServer.quorum (unit_server (_restart ready s))
       = ZKCluster.quorum (cluster s)
     ∧ ZKServer.password_rotated (unit_server (_restart ready s))
       = ZKCluster.rotate_passwords (cluster s)).
Proof.
  unfold _restart. split; intros ->; cbn [negb].
  - repeat split. by apply emitted_app.
  - cbv zeta.
    rewrite update_client_data_unit_server, update_client_data_status,
      update_client_data_cluster.
    split; [|split; [reflexivity|split; [reflexivity|]]].
    + apply emitted_app. rewrite update_client_data_trace.
      cbn [trace set_unit_server set_status call].
      by rewrite <- (assoc_L (++)).
    + cbn [unit_server set_unit_server set_status call cluster].
      unfold ZKServer.unified, ZKServer.quorum, ZKServer.password_rotated.
      cbn [ZKServer.update ZKServer.relation_data].
      repeat split.
      * erewrite get_dict_update_Some; [apply truthy_flag|].
        cbn [list_to_map foldr fst snd]. by simplify_map_eq.
      * erewrite get_dict_update_Some; [reflexivity|].
        cbn [list_to_map foldr fst snd]. by simplify_map_eq.
      * erewrite get_dict_update_Some; [apply truthy_flag|].
        cbn [list_to_map foldr fst snd]. by simplify_map_eq.
Qed.

End Handlers.

(** ** Upgrade checks *)

Section UpgradeChecks.
Import Upgrade.
Local Open Scope nat_scope.

(** What a bounded retry returns: the first success among the attempts it
    may make, or, when all of them raise, the exception of the last. *)
Lemma retry_from_cases {A} (more attempt_number : nat) (fn : nat → result A) :
  (∃ i a, attempt_number ≤ i ≤ attempt_number + more
          ∧ fn i = Ok a
          ∧ (∀ j, attempt_number ≤ j < i → ∃ e, fn j = Raise e)
          ∧ retry_from more attempt_number fn = Ok a)
  ∨ (∃ e, (∀ j, attempt_number ≤ j ≤ attempt_number + more → ∃ e', fn j = Raise e')
          ∧ fn (attempt_number + more) = Raise e
          ∧ retry_from more attempt_number fn = Raise e).
Proof.
  revert attempt_number. induction more as [|more IH]; intros n; cbn [retry_from].
  - destruct (fn n) as [a|e] eqn:Hn.
    + left. exists n, a. repeat split; [lia|lia|done|]. intros j Hj. lia.
    + right. exists e. rewrite Nat.add_0_r. repeat split; [|done].
      intros j Hj. assert (j = n) as -> by lia. by exists e.
  - destruct (fn n) as [a|e] eqn:Hn.
    + left. exists n, a. repeat split; [lia|lia|done|]. intros j Hj. lia.
    + destruct (IH (S n)) as [(i & a & Hi & Hok & Hbefore & Hret)
                             |(e' & Hall & Hlast & Hret)].
      * left. exists i, a. repeat split; [lia|lia|done| |done].
        intros j Hj. destruct (decide (j = n)) as [->|Hne]; [by exists e|].
        apply Hbefore. lia.
      * right. exists e'. replace (n + S more) with (S n + more) by lia.
        repeat split; [|done|done].
        intros j Hj. destruct (decide (j = n)) as [->|Hne]; [by exists e|].
        apply Hall. lia.
Qed.

(** C7, as the code has it.  The retry decorator stands on
    [post_upgrade_check], whose every attempt runs the pre-upgrade check and
    then the workload health check: the call succeeds exactly when one of
    its attempts 1 to 5 succeeds, and when it raises, all five attempts have
    raised and the exception is the fifth attempt's. *)
Theorem post_upgrade_check_retried (envs : nat → Env) :
  (post_upgrade_check envs = Ok tt
   ↔ ∃ i, 1 ≤ i ≤ 5 ∧ post_upgrade_check_body (envs i) = Ok tt)
  ∧ (∀ e, post_upgrade_check envs = Raise e →
       (∀ i, 1 ≤ i ≤ 5 → ∃ e', post_upgrade_check_body (envs i) = Raise e')
       ∧ post_upgrade_check_body (envs 5) = Raise e).
Proof.
  unfold post_upgrade_check, retry. cbn [Nat.sub].
  destruct (retry_from_cases 4 1 (λ i, post_upgrade_check_body (envs i)))
    as [(i & a & Hi & Hok & _ & Hret)|(e' & Hall & Hlast & Hret)];
    cbn beta in *; rewrite Hret.
  - destruct a. split.
    + split; [|done]. intros _. exists i. split; [lia|done].
    + intros e He. discriminate He.
  - split.
    + split; [intros He; discriminate He|].
      intros (i & Hi & Hok). destruct (Hall i) as [e'' He'']; [lia|]. congruence.
    + intros e [= <-]. split; [|done]. intros i Hi. apply Hall. lia.
Qed.

(** C7, the claim as stated fails: [pre_upgrade_check] carries no retry.
    With a member that is not broadcasting at the first attempt only, the
    check would pass at a second attempt, yet the one attempt it makes
    raises; [post_upgrade_check], which is retried, passes on the same run. *)
Lemma pre_upgrade_check_makes_one_attempt :
  pre_upgrade_check (Examples.transient 2) = Ok tt
  ∧ pre_upgrade_check (Examples.transient 1)
    = Raise (ClusterNotReadyError default_message "Unknown error")
  ∧ post_upgrade_check Examples.transient = Ok tt.
Proof. repeat split. Qed.

(** C8, the behaviour of the code where the claim fails.  Each of the three
    conditions the check tests itself (a member not broadcasting, members
    syncing, the charm not stable) raises its own cause inside the [try]
    block, and the [except Exception] clause of line 144 replaces it: the
    caller receives the cause "Unknown error". *)
Lemma named_causes_surface_as_unknown_error :
  (checks (Examples.attempt (Ok Examples.quorum_not_broadcasting) Examples.serving)
   = Raise (ClusterNotReadyError default_message
       "Not all application units are connected and broadcasting in the quorum")
   ∧ pre_upgrade_check
       (Examples.attempt (Ok Examples.quorum_not_broadcasting) Examples.serving)
     = Raise (ClusterNotReadyError default_message "Unknown error"))
  ∧ (checks (Examples.attempt (Ok Examples.quorum_syncing) Examples.serving)
     = Raise (ClusterNotReadyError default_message
         "Some quorum members are syncing data")
     ∧ pre_upgrade_check (Examples.attempt (Ok Examples.quorum_syncing) Examples.serving)
       = Raise (ClusterNotReadyError default_message "Unknown error"))
  ∧ (checks (Examples.attempt (Ok Examples.quorum_of_two) Examples.bootstrap)
     = Raise (ClusterNotReadyError default_message
         "Charm has not finished initialising")
     ∧ pre_upgrade_check (Examples.attempt (Ok Examples.quorum_of_two) Examples.bootstrap)
       = Raise (ClusterNotReadyError default_message "Unknown error")).
Proof. repeat split; vm_compute; reflexivity. Qed.

End UpgradeChecks.

(** ** The claims on example deployments *)

Lemma post_upgrade_check_retried_witness :
  Upgrade.post_upgrade_check Examples.transient = Upgrade.Ok tt.
Proof.
  apply (proj1 (post_upgrade_check_retried Examples.transient)).
  exists 2. split; [lia|reflexivity].
Defined.

Lemma init_leader_added_witness :
  ZKCluster.membership
    (cluster (update_quorum Examples.ready_when_stable OtherEvent Examples.bootstrap))
    !! "0" = Some "added".
Proof.
  apply (init_leader_added Examples.ready_when_stable OtherEvent Examples.bootstrap
           (Examples.plain_node 0 "default - non-ssl"));
    vm_compute; reflexivity.
Defined.

Lemma target_mode_follows_unified_witness :
  ZKCluster.quorum
    (cluster (update_quorum Examples.ready_when_stable OtherEvent
                Examples.switching_to_ssl)) = "ssl"
  ∧ ZKCluster.quorum
      (cluster (update_quorum Examples.ready_when_stable OtherEvent
                  Examples.half_unified)) = "non-ssl".
Proof.
  split.
  - apply (proj1 (target_mode_follows_unified Examples.ready_when_stable OtherEvent
                    Examples.switching_to_ssl)).
    + vm_compute; reflexivity.
    + vm_compute; reflexivity.
    + intros srv Hin.
      change (srv ∈ [Examples.unified_node 0 "non-ssl"]) in Hin.
      apply list_elem_of_singleton in Hin. rewrite Hin. vm_compute; reflexivity.
  - etrans.
    + apply (proj2 (target_mode_follows_unified Examples.ready_when_stable OtherEvent
                      Examples.half_unified)).
      exists (Examples.plain_node 1 "non-ssl"). split; [|vm_compute; reflexivity].
      change (Examples.plain_node 1 "non-ssl"
              ∈ [Examples.unified_node 0 "non-ssl"; Examples.plain_node 1 "non-ssl"]).
      apply elem_of_cons. right. apply elem_of_cons. by left.
    + vm_compute; reflexivity.
Defined.

Lemma switching_cleared_after_all_units_quorum_witness :
  ZKCluster.quorum
    (cluster (update_quorum Examples.ready_when_stable OtherEvent
                Examples.switched_to_ssl))
  = target_mode Examples.switched_to_ssl
  ∧ ∀ srv,
      srv ∈ ClusterState.servers
              (update_quorum Examples.ready_when_stable OtherEvent
                 Examples.switched_to_ssl) →
      ZKServer.quorum srv
      = ZKCluster.quorum
          (cluster (update_quorum Examples.ready_when_stable OtherEvent
                      Examples.switched_to_ssl)).
Proof.
  apply (switching_cleared_after_all_units_quorum Examples.ready_when_stable
           OtherEvent Examples.switched_to_ssl);
    vm_compute; reflexivity.
Defined.

Lemma no_restart_signal_on_own_departure_witness :
  AcquireLock
    ∈ emitted Examples.serving
        (_on_cluster_relation_changed Examples.ready_when_stable
           Examples.render_zoo_cfg OtherEvent Examples.serving)
  ∧ AcquireLock
    ∉ emitted Examples.serving
        (_on_cluster_relation_changed Examples.ready_when_stable
           Examples.render_zoo_cfg
           (RelationDepartedEvent (Some "zookeeper-k8s/0")) Examples.serving).
Proof.
  split.
  - vm_compute. apply elem_of_cons. by left.
  - apply (no_restart_signal_on_own_departure Examples.ready_when_stable
             Examples.render_zoo_cfg (RelationDepartedEvent (Some "zookeeper-k8s/0"))
             Examples.serving).
    vm_compute; reflexivity.
Defined.

Lemma restart_lock_requested_iff_witness :
  AcquireLock
  ∈ emitted Examples.stale_config
      (_on_cluster_relation_changed Examples.ready_when_stable
         Examples.render_zoo_cfg OtherEvent Examples.stale_config).
Proof.
  apply (restart_lock_requested_iff Examples.ready_when_stable
           Examples.render_zoo_cfg OtherEvent Examples.stale_config);
    [reflexivity|reflexivity|discriminate|].
  split; [|vm_compute; reflexivity].
  left. vm_compute. discriminate.
Defined.

(** C5, the claim as stated fails: a unit that has not started requests no
    restart lock although its rendered configuration differs from the
    applied one (here the follower waits for the passwords). *)
Lemma no_restart_lock_before_start :
  let s := Examples.waiting_for_passwords in
  let s2 := before_restart_check Examples.ready_when_stable
              Examples.render_zoo_cfg OtherEvent s in
  alive s = true ∧ peer_relation s = true
  ∧ Examples.render_zoo_cfg s2 ≠ applied_config s2
  ∧ emitted s (_on_cluster_relation_changed Examples.ready_when_stable
                 Examples.render_zoo_cfg OtherEvent s) = []
  ∧ ¬ (AcquireLock
       ∈ emitted s (_on_cluster_relation_changed Examples.ready_when_stable
                      Examples.render_zoo_cfg OtherEvent s)
       ↔ Examples.render_zoo_cfg s2 ≠ applied_config s2
         ∨ ZKCluster.switching_encryption (cluster s2) = true).
Proof.
  cbv zeta.
  assert (emitted Examples.waiting_for_passwords
            (_on_cluster_relation_changed Examples.ready_when_stable
               Examples.render_zoo_cfg OtherEvent Examples.waiting_for_passwords)
          = []) as Hnone by (vm_compute; reflexivity).
  assert (Examples.render_zoo_cfg
            (before_restart_check Examples.ready_when_stable
               Examples.render_zoo_cfg OtherEvent Examples.waiting_for_passwords)
          ≠ applied_config
              (before_restart_check Examples.ready_when_stable
                 Examples.render_zoo_cfg OtherEvent Examples.waiting_for_passwords))
    as Hdiff by (vm_compute; discriminate).
  split; [reflexivity|]. split; [reflexivity|].
  split; [exact Hdiff|]. split; [exact Hnone|].
  rewrite Hnone. intros [_ Hif].
  apply (not_elem_of_nil AcquireLock), Hif. by left.
Qed.


Lemma restart_only_when_stable_witness :
  emitted Examples.bootstrap (_restart Examples.ready_when_stable Examples.bootstrap)
  = [Defer]
  ∧ emitted Examples.switching_to_ssl
      (_restart Examples.ready_when_stable Examples.switching_to_ssl)
    = [WorkloadRestart; Sleep 5]
  ∧ ZKServer.unified
      (unit_server (_restart Examples.ready_when_stable Examples.switching_to_ssl))
    = true
  ∧ ZKServer.password_rotated
      (unit_server (_restart Examples.ready_when_stable Examples.switching_to_ssl))
    = false.
Proof.
  split.
  - apply (proj1 (restart_only_when_stable Examples.ready_when_stable
                    Examples.bootstrap)).
    vm_compute; reflexivity.
  - destruct (proj2 (restart_only_when_stable Examples.ready_when_stable
                       Examples.switching_to_ssl))
      as (Hcalls & _ & _ & Hunified & _ & Hrotated); [vm_compute; reflexivity|].
    split; [exact Hcalls|]. split.
    + etrans; [exact Hunified|]. vm_compute; reflexivity.
    + etrans; [exact Hrotated|]. vm_compute; reflexivity.
Defined.
